(** * code-genie: the wrapper classes of [code_genie/genie.py]

    A shallow embedding of [GenieBase], [Genie] and [PandasGenie]:
    construction (normalise the instructions, one call to the generation
    service, activation of the returned text with [exec]), invocation and the
    [code] accessor.  Python exceptions are an error result; the two effects of
    construction, the request that leaves for the service and the dictionary
    that [exec] fills, are threaded through an explicit [world]. *)

From Stdlib Require Import ZArith Ascii String.
From stdpp Require Import base option list gmap strings.

(** ** Exceptions *)

(** A raised exception: its class name and its argument. *)
Record PyExn := Raise { exn_class : string; exn_arg : string }.

(** [mem[k]] on a dictionary without key [k]. *)
Definition KeyError (k : string) : PyExn := Raise "KeyError" k.
Definition TypeError (msg : string) : PyExn := Raise "TypeError" msg.
Definition SyntaxError (msg : string) : PyExn := Raise "SyntaxError" msg.
Definition NameError (name : string) : PyExn := Raise "NameError" name.

(** ** Requests and the client *)

(** Modelled from the spec: [GetExecutableRequest] is declared in
    [code_genie/client.py], a module whose source is not available.  The
    Task Descriptor of the spec is a plain record; its fields are the keyword
    arguments [Genie._get_code] builds it from, each with the type of the
    attribute that is passed. *)
Record GetExecutableRequest := {
  instructions : list string;
  inputs : option (gmap string string);
  allowed_imports : option (list string)
}.

(** Modelled from the spec: [GetPandasExecutableRequest], as above, with the
    extra column hints of the tabular specialisation. *)
Record GetPandasExecutableRequest := {
  p_instructions : list string;
  p_inputs : option (gmap string string);
  p_columns : option (list string);
  p_allowed_imports : option (list string)
}.

(** What leaves for the generation service. *)
Inductive request :=
| GenericRequest (r : GetExecutableRequest)
| PandasRequest (r : GetPandasExecutableRequest).

(** Modelled from the spec: [Client], also of [code_genie/client.py].  Its two
    operations take a Task Descriptor and return the Generation Result
    (code text, function name) or raise. *)
Record Client := {
  get_generic : GetExecutableRequest -> PyExn + (string * string);
  get_pandas : GetPandasExecutableRequest -> PyExn + (string * string)
}.

(** ** The world: requests sent and the store of dictionaries *)

(** [sent] is the log of the requests the constructions hand to their client,
    oldest first.
    [heap] is the store of namespace dictionaries; a dictionary is known by
    its index, so that two names for one dictionary share its contents. *)
Record world (V : Type) := World {
  sent : list request;
  heap : list (gmap string V)
}.
Arguments World {V} _ _.
Arguments sent {V} _.
Arguments heap {V} _.

(** Computations that may raise and that act on the world. *)
Definition M (V A : Type) : Type := world V -> (PyExn + A) * world V.

Definition ret {V A} (a : A) : M V A := fun w => (inr a, w).
Definition raise {V A} (e : PyExn) : M V A := fun w => (inl e, w).
Definition bind {V A B} (c : M V A) (k : A -> M V B) : M V B :=
  fun w =>
    match c w with
    | (inr a, w') => k a w'
    | (inl e, w') => (inl e, w')
    end.
(** A pure call that may raise. *)
Definition lift {V A} (r : PyExn + A) : M V A := fun w => (r, w).

Declare Scope py_scope.
Delimit Scope py_scope with py.
Notation "x <- c ;; k" := (bind c (fun x => k))
  (at level 100, c at next level, right associativity) : py_scope.
Notation "c ;;; k" := (bind c (fun _ => k))
  (at level 100, right associativity) : py_scope.

(** The outcome of a computation is an exception of class [cls]. *)
Definition fails_with {V A} (cls : string) (r : (PyExn + A) * world V) : Prop :=
  exists e, r.1 = inl e /\ exn_class e = cls.

(** The class of the exception a computation ended with, if it did. *)
Definition raised_class {V A} (r : (PyExn + A) * world V) : option string :=
  match r.1 with
  | inl e => Some (exn_class e)
  | inr _ => None
  end.

(** ** The Python runtime the module runs on *)

(** [value] are the runtime's objects.  [py_exec code l h] is the statement
    [exec(code, mem)] in the store [h], where [mem] is the dictionary at index
    [l]: the store as the run leaves it, and the exception if the run raised.
    The text is run with every dictionary of the store in reach, not only its
    globals [mem].  [as_callable f] is the call slot of [f], absent on objects
    that cannot be called; a call acts on the whole world.  [Client_new] is
    [Client()]. *)
Class Runtime := {
  value : Type;
  py_exec : string -> nat -> list (gmap string value)
            -> list (gmap string value) * option PyExn;
  as_callable : value -> option (list value -> list (string * value) -> M value value);
  type_name : value -> string;
  Client_new : PyExn + Client
}.

Section Genie.
Context {R : Runtime}.

Local Open Scope py_scope.

Abbreviation Mv := (M value).

(** The call [f(args, kwargs)] of the object [f] with positional and keyword
    arguments. *)
Definition py_call (f : value) (args : list value) (kwargs : list (string * value))
  : Mv value :=
  match as_callable f with
  | Some g => g args kwargs
  | None => raise (TypeError ("'" +:+ type_name f +:+ "' object is not callable"))
  end.

(** [mem = {}]: a new dictionary, stored past every existing one. *)
Definition new_dict : Mv nat :=
  fun w => (inr (length (heap w)), World (sent w) (heap w ++ [∅])).

(** [exec(code, mem)] with [mem] the dictionary at [l]: the run is handed
    the store, and the store is what the run leaves. *)
Definition exec (code : string) (l : nat) : Mv unit :=
  fun w =>
    let '(h', raised) := py_exec code l (heap w) in
    (match raised with Some e => inl e | None => inr tt end,
     World (sent w) h').

(** [mem[k]]. *)
Definition getitem (l : nat) (k : string) : Mv value :=
  fun w =>
    match (heap w !!! l) !! k with
    | Some v => (inr v, w)
    | None => (inl (KeyError k), w)
    end.

(** The request is logged, then answered by the client. *)
Definition send {A} (r : request) (answer : PyExn + A) : Mv A :=
  fun w => (answer, World (sent w ++ [r]) (heap w)).

(** [instructions: Union[str, List[str]]]. *)
Inductive instructions_arg :=
| InstrStr (s : string)
| InstrList (l : list string).

(** The attributes [GenieBase.__init__] sets before it asks for the code. *)
Record base_attrs := {
  _inputs : option (gmap string string);
  _instructions : list string;
  _allowed_imports : option (list string)
}.

(** The abstract method of [GenieBase].  [S] holds the attributes a subclass
    sets on [self] before it delegates to [GenieBase.__init__]. *)
Class GenieImpl (S : Type) := {
  _get_code : S -> base_attrs -> Client -> Mv (string * string)
}.

(** A constructed wrapper. *)
Record GenieObj (S : Type) := {
  _own : S;
  _base : base_attrs;
  _code : string;
  _fn_name : string;
  _executor : value
}.
Arguments _own {S} _.
Arguments _base {S} _.
Arguments _code {S} _.
Arguments _fn_name {S} _.
Arguments _executor {S} _.

(** [GenieBase._extract_executable]. *)
Definition _extract_executable (code fn_name : string) : Mv value :=
  mem <- new_dict ;;
  exec code mem ;;;
  getitem mem fn_name.

(** [isinstance(instructions, str)] and the list it is wrapped in. *)
Definition normalize (i : instructions_arg) : list string :=
  match i with
  | InstrStr s => [s]
  | InstrList l => l
  end.

(** [client or Client()]. *)
Definition client_or_new (client : option Client) : PyExn + Client :=
  match client with
  | Some c => inr c
  | None => Client_new
  end.

(** The first four statements of [GenieBase.__init__]: the attributes as they
    stand when the code is asked for. *)
Definition init_attrs (instructions : instructions_arg)
    (inputs : option (gmap string string)) (allowed_imports : option (list string))
  : base_attrs :=
  {| _inputs := inputs;
     _instructions := normalize instructions;
     _allowed_imports := allowed_imports |}.

(** [GenieBase.__init__]. *)
Definition GenieBase_init {S} `{GenieImpl S} (self : S)
    (instructions : instructions_arg) (inputs : option (gmap string string))
    (allowed_imports : option (list string)) (client : option Client)
  : Mv (GenieObj S) :=
  let base := init_attrs instructions inputs allowed_imports in
  c <- lift (client_or_new client) ;;
  answer <- _get_code self base c ;;
  let '(code, fn_name) := answer in
  executor <- _extract_executable code fn_name ;;
  ret {| _own := self; _base := base; _code := code; _fn_name := fn_name;
         _executor := executor |}.

(** [GenieBase.__call__], declared [def __call__(self, *args, **kwargs)].  A
    keyword named [self] meets the parameter that already holds the wrapper:
    the call is refused before the body is entered.  Every other keyword goes
    to [kwargs]. *)
Definition __call__ {S} (self : GenieObj S) (args : list value)
    (kwargs : list (string * value)) : Mv value :=
  if bool_decide ("self" ∈ kwargs.*1) then
    raise (TypeError "GenieBase.__call__() got multiple values for argument 'self'")
  else py_call (_executor self) args kwargs.

(** The [code] property. *)
Definition code {S} (self : GenieObj S) : string := _code self.

(** *** [Genie] *)

Definition Genie_request (b : base_attrs) : GetExecutableRequest :=
  {| instructions := _instructions b;
     inputs := _inputs b;
     allowed_imports := _allowed_imports b |}.

#[export] Instance Genie_impl : GenieImpl unit := {
  _get_code _ b client :=
    send (GenericRequest (Genie_request b)) (get_generic client (Genie_request b))
}.

(** [Genie(instructions, inputs, allowed_imports, client)]. *)
Definition Genie (instructions : instructions_arg) (inputs : gmap string string)
    (allowed_imports : option (list string)) (client : option Client)
  : Mv (GenieObj unit) :=
  GenieBase_init tt instructions (Some inputs) allowed_imports client.

(** *** [PandasGenie] *)

Record pandas_attrs := { _columns : option (list string) }.

Definition Pandas_request (s : pandas_attrs) (b : base_attrs)
  : GetPandasExecutableRequest :=
  {| p_instructions := _instructions b;
     p_inputs := _inputs b;
     p_columns := _columns s;
     p_allowed_imports := _allowed_imports b |}.

#[export] Instance PandasGenie_impl : GenieImpl pandas_attrs := {
  _get_code s b client :=
    send (PandasRequest (Pandas_request s b)) (get_pandas client (Pandas_request s b))
}.

(** [PandasGenie(instructions, columns, inputs, allowed_imports, client)]. *)
Definition PandasGenie (instructions : instructions_arg)
    (columns : option (list string)) (inputs : option (gmap string string))
    (allowed_imports : option (list string)) (client : option Client)
  : Mv (GenieObj pandas_attrs) :=
  GenieBase_init {| _columns := columns |} instructions inputs allowed_imports client.

(** The defaults the docstring of [PandasGenie.__init__] announces. *)
Definition documented_default_imports : list string :=
  ["pandas"; "numpy"; "math"; "datetime"; "matplotlib"; "seaborn"].

(** [instructions] is empty: the empty string or the empty sequence. *)
Definition empty_instructions (i : instructions_arg) : Prop :=
  i = InstrStr "" \/ i = InstrList [].

(** *** The run an activation starts *)

(** The run of the text [cd] that [_extract_executable] starts in the world
    [w]: on the store of [w] with one more, empty, dictionary, which is the
    globals of the run. *)
Definition activation_run (cd : string) (w : world value)
  : list (gmap string value) * option PyExn :=
  py_exec cd (length (heap w)) (heap w ++ [∅]).

(** That dictionary as the run leaves it. *)
Definition activation_dict (cd : string) (w : world value) : gmap string value :=
  (activation_run cd w).1 !!! length (heap w).

(** *** What a construction sends *)

(** The world once request [r] has left. *)
Definition after_send (w : world value) (r : request) : world value :=
  World (sent w ++ [r]) (heap w).

(** The Task Descriptor a [Genie] construction builds. *)
Definition Genie_descriptor (i : instructions_arg) (inp : gmap string string)
    (ai : option (list string)) : GetExecutableRequest :=
  Genie_request (init_attrs i (Some inp) ai).

(** The Task Descriptor a [PandasGenie] construction builds. *)
Definition Pandas_descriptor (i : instructions_arg) (cols : option (list string))
    (inp : option (gmap string string)) (ai : option (list string))
  : GetPandasExecutableRequest :=
  Pandas_request {| _columns := cols |} (init_attrs i inp ai).

End Genie.

Arguments _own {R S} _.
Arguments _base {R S} _.
Arguments _code {R S} _.
Arguments _fn_name {R S} _.
Arguments _executor {R S} _.

(** ** A small runtime to run the wrappers on

    An interpreter for a fragment of Python, enough to run the examples.  A
    program is a sequence of lines, each of them blank, an assignment
    [NAME = RHS], the statement [import __main__], or an attribute assignment
    [NAME.NAME = RHS]; [RHS] is a decimal literal, a name, or a constant
    function [lambda *args, **kwargs: LITERAL].  Names are looked up in the
    globals and then among the builtins, of which there is [abs].  The
    dictionary at index 0 of the store is the namespace of the module
    [__main__], the caller's.  Text outside the fragment is refused as a
    whole, before anything is run. *)
Module Mini.

Inductive pyval :=
| PInt (z : Z)
| PBuiltinFn (name : string)
| PBuiltins
| PConstFn (z : Z)
| PModule (l : nat).

Definition pyval_type_name (v : pyval) : string :=
  match v with
  | PInt _ => "int"
  | PBuiltinFn _ => "builtin_function_or_method"
  | PBuiltins => "dict"
  | PConstFn _ => "function"
  | PModule _ => "module"
  end.

Definition AttributeError (msg : string) : PyExn := Raise "AttributeError" msg.

Definition newline : ascii := ascii_of_nat 10.

(** The lines of a text. *)
Fixpoint lines (s : string) : list string :=
  match s with
  | EmptyString => [EmptyString]
  | String c r =>
      if Ascii.eqb c newline then EmptyString :: lines r
      else match lines r with
           | h :: t => String c h :: t
           | [] => [String c EmptyString]
           end
  end.

Definition is_digit (c : ascii) : bool :=
  let n := nat_of_ascii c in (48 <=? n)%nat && (n <=? 57)%nat.

Definition is_ident_start (c : ascii) : bool :=
  let n := nat_of_ascii c in
  ((65 <=? n)%nat && (n <=? 90)%nat) || ((97 <=? n)%nat && (n <=? 122)%nat)
  || (n =? 95)%nat.

Fixpoint all_chars (p : ascii -> bool) (s : string) : bool :=
  match s with
  | EmptyString => true
  | String c r => p c && all_chars p r
  end.

Definition keywords : list string :=
  ["False"; "None"; "True"; "and"; "as"; "assert"; "async"; "await"; "break";
   "class"; "continue"; "def"; "del"; "elif"; "else"; "except"; "finally";
   "for"; "from"; "global"; "if"; "import"; "in"; "is"; "lambda"; "nonlocal";
   "not"; "or"; "pass"; "raise"; "return"; "try"; "while"; "with"; "yield"].

Definition is_ident (s : string) : bool :=
  match s with
  | EmptyString => false
  | String c r =>
      is_ident_start c
      && all_chars (fun c => is_ident_start c || is_digit c) r
      && negb (bool_decide (s ∈ keywords))
  end.

(** A decimal literal: [0], or digits that do not start with [0]. *)
Definition is_literal (s : string) : bool :=
  match s with
  | EmptyString => false
  | String c EmptyString => is_digit c
  | String c r => is_digit c && negb (Ascii.eqb c "0"%char) && all_chars is_digit r
  end.

Fixpoint literal_value (acc : Z) (s : string) : Z :=
  match s with
  | EmptyString => acc
  | String c r => literal_value (10 * acc + Z.of_nat (nat_of_ascii c - 48)) r
  end.

Inductive rhs := Lit (z : Z) | Name (x : string) | Lambda (z : Z).
Inductive stmt :=
| Pass
| Assign (x : string) (e : rhs)
| ImportMain
| SetAttr (o a : string) (e : rhs).

Definition lambda_head : string := "lambda *args, **kwargs: ".

(** The text from position [i] on. *)
Definition from (i : nat) (s : string) : string :=
  String.substring i (String.length s - i) s.

Definition parse_rhs (e : string) : option rhs :=
  if is_literal e then Some (Lit (literal_value 0 e))
  else if is_ident e then Some (Name e)
  else if String.prefix lambda_head e
          && is_literal (from (String.length lambda_head) e)
       then Some (Lambda (literal_value 0 (from (String.length lambda_head) e)))
  else None.

Definition parse_target (t : string) (e : rhs) : option stmt :=
  if is_ident t then Some (Assign t e)
  else
    match String.index 0 "." t with
    | None => None
    | Some j =>
        let o := String.substring 0 j t in
        let a := from (j + 1) t in
        if is_ident o && is_ident a then Some (SetAttr o a e) else None
    end.

Definition parse_line (l : string) : option stmt :=
  if String.eqb l "" then Some Pass
  else if String.eqb l "import __main__" then Some ImportMain
  else
    match String.index 0 " = " l with
    | None => None
    | Some i =>
        match parse_rhs (from (i + 3) l) with
        | Some e => parse_target (String.substring 0 i l) e
        | None => None
        end
    end.

Fixpoint parse_lines (ls : list string) : option (list stmt) :=
  match ls with
  | [] => Some []
  | l :: ls =>
      match parse_line l, parse_lines ls with
      | Some s, Some ss => Some (s :: ss)
      | _, _ => None
      end
  end.

Definition builtin (x : string) : option pyval :=
  if String.eqb x "abs" then Some (PBuiltinFn "abs") else None.

Definition eval_rhs (e : rhs) (g : gmap string pyval) : PyExn + pyval :=
  match e with
  | Lit z => inr (PInt z)
  | Lambda z => inr (PConstFn z)
  | Name x =>
      match g !! x with
      | Some v => inr v
      | None =>
          match builtin x with
          | Some v => inr v
          | None => inl (NameError x)
          end
      end
  end.

(** Name [x] is bound to [v] in the dictionary at [l]. *)
Definition bind_name (l : nat) (x : string) (v : pyval)
    (h : list (gmap string pyval)) : list (gmap string pyval) :=
  <[l := <[x := v]> (h !!! l)]> h.

(** The statements are run one after the other, with the dictionary at [l]
    for globals.  An attribute assignment evaluates its right-hand side, then
    its object; on a module it binds the name in the module's namespace, on a
    function it is accepted (what functions carry is not kept), on every other
    object here it is an error. *)
Fixpoint run (ss : list stmt) (l : nat) (h : list (gmap string pyval))
  : list (gmap string pyval) * option PyExn :=
  match ss with
  | [] => (h, None)
  | Pass :: ss => run ss l h
  | Assign x e :: ss =>
      match eval_rhs e (h !!! l) with
      | inr v => run ss l (bind_name l x v h)
      | inl err => (h, Some err)
      end
  | ImportMain :: ss => run ss l (bind_name l "__main__" (PModule 0) h)
  | SetAttr o a e :: ss =>
      match eval_rhs e (h !!! l) with
      | inl err => (h, Some err)
      | inr v =>
          match eval_rhs (Name o) (h !!! l) with
          | inl err => (h, Some err)
          | inr (PModule m) => run ss l (bind_name m a v h)
          | inr (PConstFn _) => run ss l h
          | inr t =>
              (h, Some (AttributeError ("'" +:+ pyval_type_name t
                                        +:+ "' object has no attribute '"
                                        +:+ a +:+ "'")))
          end
      end
  end.

(** [exec(code, mem)] with [mem] at [l]: the builtins are made reachable from
    [mem] first, then the text is compiled as a whole, then run. *)
Definition mini_exec (code : string) (l : nat) (h : list (gmap string pyval))
  : list (gmap string pyval) * option PyExn :=
  let h0 := match (h !!! l) !! "__builtins__" with
            | Some _ => h
            | None => bind_name l "__builtins__" PBuiltins h
            end in
  match parse_lines (lines code) with
  | Some ss => run ss l h0
  | None => (h0, Some (SyntaxError "invalid syntax"))
  end.

(** The call slot.  [abs] takes one number and no keyword; a constant function
    takes whatever it is given. *)
Definition mini_callable (v : pyval)
  : option (list pyval -> list (string * pyval) -> M pyval pyval) :=
  match v with
  | PBuiltinFn name =>
      Some (fun args kwargs =>
        match kwargs, args with
        | _ :: _, _ => raise (TypeError (name +:+ "() takes no keyword arguments"))
        | [], [PInt z] =>
            if String.eqb name "abs" then ret (PInt (Z.abs z))
            else raise (TypeError ("no builtin " +:+ name))
        | [], [_] => raise (TypeError ("bad operand type for " +:+ name +:+ "()"))
        | [], _ => raise (TypeError (name +:+ "() takes exactly one argument"))
        end)
  | PConstFn z => Some (fun _ _ => ret (PInt z))
  | _ => None
  end.

(** A service that is never reached: [Client()] without credentials. *)
Definition no_client : PyExn + Client :=
  inl (Raise "ValueError" "no token").

#[export] Instance runtime : Runtime := {
  value := pyval;
  py_exec := mini_exec;
  as_callable := mini_callable;
  type_name := pyval_type_name;
  Client_new := no_client
}.

(** A stub service that answers every request with the same result. *)
Definition stub (answer : PyExn + (string * string)) : Client :=
  {| get_generic _ := answer; get_pandas _ := answer |}.

(** The world before anything happened: nothing sent, and one dictionary, the
    caller's globals, holding one binding. *)
Definition w0 : world value := World [] [ {[ "f" := PInt 7 ]} ].

(** The inputs mapping of the examples. *)
Definition x_inputs : gmap string string := {[ "x" := "a number" ]}.

(** A service that cannot be reached. *)
Definition unreachable : Client :=
  stub (inl (Raise "ConnectionError" "service unreachable")).

(** A service whose code binds [f] to a function. *)
Definition gives_function : Client := stub (inr ("f = abs", "f")).

(** A service whose code binds [f] to a number. *)
Definition gives_number : Client := stub (inr ("f = 3", "f")).

(** A service whose code binds [x] where [f] was announced. *)
Definition gives_other_name : Client := stub (inr ("x = 3", "f")).

(** The wrapper that [gives_function] leads to, and the world it leaves: the
    request in the log, the wrapper's dictionary next to the caller's. *)
Definition abs_wrapper : GenieObj unit :=
  {| _own := tt;
     _base := init_attrs (InstrStr "absolute value of x") (Some x_inputs) None;
     _code := "f = abs"; _fn_name := "f"; _executor := PBuiltinFn "abs" |}.

Definition abs_world : world value :=
  World [GenericRequest (Genie_descriptor (InstrStr "absolute value of x")
                           x_inputs None)]
        [ {[ "f" := PInt 7 ]};
          <["f" := PBuiltinFn "abs"]> {[ "__builtins__" := PBuiltins ]} ].

(** A service whose code binds [f] and then uses a name nobody bound. *)
Definition gives_failing_code : Client :=
  stub (inr ("f = 3
g = h", "f")).

(** A service with the generic operation of [gives_function] and a tabular
    operation that raises. *)
Definition generic_only : Client :=
  {| get_generic _ := inr ("f = abs", "f");
     get_pandas _ := inl (Raise "ConnectionError" "service unreachable") |}.

(** A service whose code binds [f] to a function that takes any keyword. *)
Definition gives_constant : Client :=
  stub (inr ("f = lambda *args, **kwargs: 5", "f")).

(** The wrapper that [gives_constant] leads to. *)
Definition constant_wrapper : GenieObj unit :=
  {| _own := tt;
     _base := init_attrs (InstrStr "five") (Some x_inputs) None;
     _code := "f = lambda *args, **kwargs: 5"; _fn_name := "f";
     _executor := PConstFn 5 |}.

(** A text that binds [g] in its own globals and rebinds [f] in the
    caller's. *)
Definition rebinding_text : string :=
  "import __main__
__main__.f = 3
g = abs".

Definition gives_rebinding : Client := stub (inr (rebinding_text, "g")).

End Mini.

(** * Properties *)

Section Facts.
Context {R : Runtime}.

Local Open Scope py_scope.

(** ** Outcomes *)

Lemma fails_with_class {A} (cls : string) (r : (PyExn + A) * world value) :
  fails_with cls r <-> raised_class r = Some cls.
Proof.
  unfold fails_with, raised_class. split.
  - intros (e & -> & <-). done.
  - destruct r.1 as [e|a]; [|discriminate]. intros [= <-]. by exists e.
Qed.

(** ** Running the pieces *)

(** Activation, step by step: the run is started on the store with one more,
    empty, dictionary; the name is looked up in that dictionary as the run
    leaves it; the store is what the run leaves. *)
Lemma extract_run (code fn_name : string) (w : world value) :
  _extract_executable code fn_name w =
  (match (activation_run code w).2 with
   | Some e => inl e
   | None =>
       match activation_dict code w !! fn_name with
       | Some v => inr v
       | None => inl (KeyError fn_name)
       end
   end,
   World (sent w) (activation_run code w).1).
Proof.
  unfold _extract_executable, bind, new_dict, exec, getitem, activation_dict,
    activation_run. simpl.
  destruct (py_exec code (length (heap w)) (heap w ++ [∅])) as [h' [e|]]; simpl.
  - done.
  - by destruct ((h' !!! length (heap w)) !! fn_name).
Qed.

Lemma extract_sent (code fn_name : string) (w : world value) :
  sent (_extract_executable code fn_name w).2 = sent w.
Proof. by rewrite extract_run. Qed.

(** Construction, once the client is known and has answered. *)
Lemma init_run {S} {I : GenieImpl S} (self : S) i inp ai client c code fn_name w w1 :
  client_or_new client = inr c ->
  _get_code self (init_attrs i inp ai) c w = (inr (code, fn_name), w1) ->
  GenieBase_init self i inp ai client w =
  (match (_extract_executable code fn_name w1).1 with
   | inr v => inr {| _own := self; _base := init_attrs i inp ai; _code := code;
                     _fn_name := fn_name; _executor := v |}
   | inl e => inl e
   end,
   (_extract_executable code fn_name w1).2).
Proof.
  intros Hc Hget. unfold GenieBase_init, bind, lift, ret.
  rewrite Hc, Hget.
  by destruct (_extract_executable code fn_name w1) as [[e|v] w2].
Qed.

(** Construction when the request for code fails. *)
Lemma init_get_code_fails {S} {I : GenieImpl S} (self : S) i inp ai client c e w w1 :
  client_or_new client = inr c ->
  _get_code self (init_attrs i inp ai) c w = (inl e, w1) ->
  GenieBase_init self i inp ai client w = (inl e, w1).
Proof.
  intros Hc Hget. unfold GenieBase_init, bind, lift. by rewrite Hc, Hget.
Qed.

(** Construction when there is no client to be had. *)
Lemma init_no_client {S} {I : GenieImpl S} (self : S) i inp ai client e w :
  client_or_new client = inl e ->
  GenieBase_init self i inp ai client w = (inl e, w).
Proof. intros Hc. unfold GenieBase_init, bind, lift. by rewrite Hc. Qed.

(** A successful construction, taken apart. *)
Lemma init_inv {S} {I : GenieImpl S} (self : S) i inp ai client w obj w' :
  GenieBase_init self i inp ai client w = (inr obj, w') ->
  exists c w1,
    client_or_new client = inr c /\
    _get_code self (init_attrs i inp ai) c w = (inr (_code obj, _fn_name obj), w1) /\
    _extract_executable (_code obj) (_fn_name obj) w1 = (inr (_executor obj), w') /\
    _own obj = self /\ _base obj = init_attrs i inp ai.
Proof.
  unfold GenieBase_init, bind, lift, ret.
  destruct (client_or_new client) as [e|c]; [discriminate|].
  destruct (_get_code self (init_attrs i inp ai) c w) as [[e|[cd fn]] w1] eqn:Hg;
    [discriminate|].
  destruct (_extract_executable cd fn w1) as [[e|v] w2] eqn:Hx; [discriminate|].
  intros [= <- <-]. exists c, w1. simpl. by rewrite Hx.
Qed.

(** *** The two classes *)

Lemma Genie_get_code_run (b : base_attrs) (c : Client) (w : world value) :
  _get_code tt b c w =
  (get_generic c (Genie_request b), after_send w (GenericRequest (Genie_request b))).
Proof. reflexivity. Qed.

Lemma Pandas_get_code_run (s : pandas_attrs) (b : base_attrs) (c : Client)
    (w : world value) :
  _get_code s b c w =
  (get_pandas c (Pandas_request s b),
   after_send w (PandasRequest (Pandas_request s b))).
Proof. reflexivity. Qed.

(** The requests a construction sends: one, unless no client could be had. *)
Lemma Genie_sent i inp ai client (w : world value) :
  sent (Genie i inp ai client w).2 =
  sent w ++ match client_or_new client with
            | inr _ => [GenericRequest (Genie_descriptor i inp ai)]
            | inl _ => []
            end.
Proof.
  unfold Genie. destruct (client_or_new client) as [e|c] eqn:Hc.
  - rewrite (init_no_client _ _ _ _ _ e) by done. simpl. by rewrite app_nil_r.
  - destruct (get_generic c (Genie_descriptor i inp ai)) as [e|[cd fn]] eqn:Hg.
    + erewrite init_get_code_fails; [|done|]; last first.
      { rewrite Genie_get_code_run. unfold Genie_descriptor in Hg. by rewrite Hg. }
      done.
    + erewrite init_run; [|done|]; last first.
      { rewrite Genie_get_code_run. unfold Genie_descriptor in Hg. by rewrite Hg. }
      simpl. by rewrite extract_sent.
Qed.

Lemma Pandas_sent i cols inp ai client (w : world value) :
  sent (PandasGenie i cols inp ai client w).2 =
  sent w ++ match client_or_new client with
            | inr _ => [PandasRequest (Pandas_descriptor i cols inp ai)]
            | inl _ => []
            end.
Proof.
  unfold PandasGenie. destruct (client_or_new client) as [e|c] eqn:Hc.
  - rewrite (init_no_client _ _ _ _ _ e) by done. simpl. by rewrite app_nil_r.
  - destruct (get_pandas c (Pandas_descriptor i cols inp ai)) as [e|[cd fn]] eqn:Hg.
    + erewrite init_get_code_fails; [|done|]; last first.
      { rewrite Pandas_get_code_run. unfold Pandas_descriptor in Hg. by rewrite Hg. }
      done.
    + erewrite init_run; [|done|]; last first.
      { rewrite Pandas_get_code_run. unfold Pandas_descriptor in Hg. by rewrite Hg. }
      simpl. by rewrite extract_sent.
Qed.

(** Construction of either class, once the service has answered. *)
Lemma Genie_run i inp ai client c cd fn (w : world value) :
  client_or_new client = inr c ->
  get_generic c (Genie_descriptor i inp ai) = inr (cd, fn) ->
  Genie i inp ai client w =
  let r := _extract_executable cd fn
             (after_send w (GenericRequest (Genie_descriptor i inp ai))) in
  (match r.1 with
   | inr v => inr {| _own := tt; _base := init_attrs i (Some inp) ai; _code := cd;
                     _fn_name := fn; _executor := v |}
   | inl e => inl e
   end, r.2).
Proof.
  intros Hc Hg. unfold Genie. erewrite init_run; [done|done|].
  rewrite Genie_get_code_run. unfold Genie_descriptor in Hg. by rewrite Hg.
Qed.

Lemma Pandas_run i cols inp ai client c cd fn (w : world value) :
  client_or_new client = inr c ->
  get_pandas c (Pandas_descriptor i cols inp ai) = inr (cd, fn) ->
  PandasGenie i cols inp ai client w =
  let r := _extract_executable cd fn
             (after_send w (PandasRequest (Pandas_descriptor i cols inp ai))) in
  (match r.1 with
   | inr v => inr {| _own := {| _columns := cols |}; _base := init_attrs i inp ai;
                     _code := cd; _fn_name := fn; _executor := v |}
   | inl e => inl e
   end, r.2).
Proof.
  intros Hc Hg. unfold PandasGenie. erewrite init_run; [done|done|].
  rewrite Pandas_get_code_run. unfold Pandas_descriptor in Hg. by rewrite Hg.
Qed.

End Facts.

(** * The claims *)

Section Claims.
Context {R : Runtime}.

(** C1, as amended: when the call to the generation service raises,
    construction of a [Genie] or of a [PandasGenie] fails with that very
    exception, unchanged; the request has left and nothing was activated. *)
Theorem service_error_propagates (client : option Client) (c : Client) (e : PyExn) :
  client_or_new client = inr c ->
  (forall i inp ai (w : world value),
      get_generic c (Genie_descriptor i inp ai) = inl e ->
      Genie i inp ai client w =
      (inl e, after_send w (GenericRequest (Genie_descriptor i inp ai))))
  /\
  (forall i cols inp ai (w : world value),
      get_pandas c (Pandas_descriptor i cols inp ai) = inl e ->
      PandasGenie i cols inp ai client w =
      (inl e, after_send w (PandasRequest (Pandas_descriptor i cols inp ai)))).
Proof.
  intros Hc. split.
  - intros i inp ai w Hg. apply init_get_code_fails with (c := c); [done|].
    rewrite Genie_get_code_run. unfold Genie_descriptor in Hg. by rewrite Hg.
  - intros i cols inp ai w Hg. apply init_get_code_fails with (c := c); [done|].
    rewrite Pandas_get_code_run. unfold Pandas_descriptor in Hg. by rewrite Hg.
Qed.

(** C2, as amended: a [PandasGenie] constructed without an inputs mapping
    sends a Task Descriptor whose inputs are absent ([None], as supplied): the
    wrapper adds no entry of its own. *)
Theorem pandas_inputs_sent_as_supplied i cols ai (client : option Client)
    (c : Client) (w : world value) :
  client_or_new client = inr c ->
  exists r,
    sent (PandasGenie i cols None ai client w).2 = sent w ++ [PandasRequest r] /\
    p_inputs r = None.
Proof.
  intros Hc. exists (Pandas_descriptor i cols None ai).
  split; [|done]. rewrite Pandas_sent. by rewrite Hc.
Qed.

(** C3, as amended: when the code returned by the service runs to its end and
    leaves no binding for the returned function name, construction fails with
    the [KeyError] of the lookup, carrying that name. *)
Theorem missing_function_is_KeyError (client : option Client) (c : Client)
    (cd fn : string) :
  client_or_new client = inr c ->
  (forall i inp ai (w : world value),
      get_generic c (Genie_descriptor i inp ai) = inr (cd, fn) ->
      (activation_run cd w).2 = None ->
      activation_dict cd w !! fn = None ->
      (Genie i inp ai client w).1 = inl (KeyError fn))
  /\
  (forall i cols inp ai (w : world value),
      get_pandas c (Pandas_descriptor i cols inp ai) = inr (cd, fn) ->
      (activation_run cd w).2 = None ->
      activation_dict cd w !! fn = None ->
      (PandasGenie i cols inp ai client w).1 = inl (KeyError fn)).
Proof.
  intros Hc. split.
  - intros i inp ai w Hg Hrun Hmem. rewrite (Genie_run _ _ _ _ c cd fn) by done.
    simpl. rewrite extract_run. simpl.
    change (activation_run cd (after_send w _)) with (activation_run cd w).
    change (activation_dict cd (after_send w _)) with (activation_dict cd w).
    by rewrite Hrun, Hmem.
  - intros i cols inp ai w Hg Hrun Hmem.
    rewrite (Pandas_run _ _ _ _ _ c cd fn) by done.
    simpl. rewrite extract_run. simpl.
    change (activation_run cd (after_send w _)) with (activation_run cd w).
    change (activation_dict cd (after_send w _)) with (activation_dict cd w).
    by rewrite Hrun, Hmem.
Qed.

(** C4, as amended: empty instructions are not checked.  The empty string is
    sent as the one-element sequence holding it and the empty sequence as it
    is, and construction succeeds whenever the service answers and the
    activation of its answer succeeds. *)
Theorem empty_instructions_accepted (i : instructions_arg)
    (client : option Client) (c : Client) (cd fn : string) (v : value) :
  empty_instructions i ->
  client_or_new client = inr c ->
  (normalize i = [""] \/ normalize i = [])
  /\
  (forall inp ai (w : world value),
      get_generic c (Genie_descriptor i inp ai) = inr (cd, fn) ->
      (_extract_executable cd fn
         (after_send w (GenericRequest (Genie_descriptor i inp ai)))).1 = inr v ->
      exists obj,
        (Genie i inp ai client w).1 = inr obj /\
        _executor obj = v /\ _instructions (_base obj) = normalize i /\
        sent (Genie i inp ai client w).2
        = sent w ++ [GenericRequest (Genie_descriptor i inp ai)])
  /\
  (forall cols inp ai (w : world value),
      get_pandas c (Pandas_descriptor i cols inp ai) = inr (cd, fn) ->
      (_extract_executable cd fn
         (after_send w (PandasRequest (Pandas_descriptor i cols inp ai)))).1 = inr v ->
      exists obj,
        (PandasGenie i cols inp ai client w).1 = inr obj /\
        _executor obj = v /\ _instructions (_base obj) = normalize i /\
        sent (PandasGenie i cols inp ai client w).2
        = sent w ++ [PandasRequest (Pandas_descriptor i cols inp ai)]).
Proof.
  intros Hi Hc. split; [|split].
  - destruct Hi as [-> | ->]; [by left | by right].
  - intros inp ai w Hg Hx. rewrite Genie_sent, Hc.
    rewrite (Genie_run _ _ _ _ c cd fn) by done. simpl. rewrite Hx.
    eexists. by split.
  - intros cols inp ai w Hg Hx. rewrite Pandas_sent, Hc.
    rewrite (Pandas_run _ _ _ _ _ c cd fn) by done. simpl. rewrite Hx.
    eexists. by split.
Qed.

(** C5, as amended: a [PandasGenie] constructed without an allow-list sends a
    Task Descriptor whose allow-list is absent ([None], as supplied): the
    wrapper fills in no default modules. *)
Theorem pandas_imports_sent_as_supplied i cols inp (client : option Client)
    (c : Client) (w : world value) :
  client_or_new client = inr c ->
  exists r,
    sent (PandasGenie i cols inp None client w).2 = sent w ++ [PandasRequest r] /\
    p_allowed_imports r = None.
Proof.
  intros Hc. exists (Pandas_descriptor i cols inp None).
  split; [|done]. rewrite Pandas_sent. by rewrite Hc.
Qed.

(** C6, as amended: a successfully constructed wrapper holds the function
    that the code returned by the service bound to the returned name, in the
    dictionary the code was run on.  Invoking the wrapper with positional and
    keyword arguments none of which is named [self] is the call of that
    function with the same arguments: the same result, the same effect on the
    world.  A keyword named [self] is taken by the wrapper's own parameter:
    the invocation is a [TypeError] and the function is not reached. *)
Theorem call_is_pass_through {S} {I : GenieImpl S} (self : S) i inp ai
    (client : option Client) (w w' : world value) (obj : GenieObj S) :
  GenieBase_init self i inp ai client w = (inr obj, w') ->
  exists w1 f,
    (activation_run (code obj) w1).2 = None /\
    activation_dict (code obj) w1 !! _fn_name obj = Some f /\
    heap w' = (activation_run (code obj) w1).1 /\
    (forall args kwargs (w2 : world value),
        "self" ∉ kwargs.*1 ->
        __call__ obj args kwargs w2 =
        match as_callable f with
        | Some g => g args kwargs w2
        | None =>
            (inl (TypeError ("'" +:+ type_name f +:+ "' object is not callable")),
             w2)
        end) /\
    (forall args kwargs (w2 : world value),
        "self" ∈ kwargs.*1 ->
        __call__ obj args kwargs w2 =
        (inl (TypeError
                "GenieBase.__call__() got multiple values for argument 'self'"),
         w2)).
Proof.
  intros Hinit. apply init_inv in Hinit as (c & w1 & _ & _ & Hx & _).
  rewrite extract_run in Hx. injection Hx as Hv Hw.
  exists w1, (_executor obj). unfold code.
  destruct (activation_run (_code obj) w1).2 as [e|]; [discriminate|].
  split; [done|]. split.
  { destruct (activation_dict (_code obj) w1 !! _fn_name obj);
      [by injection Hv as -> | discriminate]. }
  split; [by rewrite <- Hw|]. split.
  - intros args kwargs w2 Hself. unfold __call__, py_call.
    rewrite bool_decide_eq_false_2 by done.
    by destruct (as_callable (_executor obj)).
  - intros args kwargs w2 Hself. unfold __call__.
    by rewrite bool_decide_eq_true_2.
Qed.

(** C7: on a successfully constructed wrapper, [code] is the very text the
    generation service returned for the request of this construction. *)
Theorem code_is_service_text :
  (forall i inp ai (client : option Client) (w w' : world value) obj,
      Genie i inp ai client w = (inr obj, w') ->
      exists c fn,
        client_or_new client = inr c /\
        get_generic c (Genie_descriptor i inp ai) = inr (code obj, fn))
  /\
  (forall i cols inp ai (client : option Client) (w w' : world value) obj,
      PandasGenie i cols inp ai client w = (inr obj, w') ->
      exists c fn,
        client_or_new client = inr c /\
        get_pandas c (Pandas_descriptor i cols inp ai) = inr (code obj, fn)).
Proof.
  split.
  - intros i inp ai client w w' obj Hinit.
    apply init_inv in Hinit as (c & w1 & Hc & Hg & _).
    rewrite Genie_get_code_run in Hg. injection Hg as Hg _.
    by exists c, (_fn_name obj).
  - intros i cols inp ai client w w' obj Hinit.
    apply init_inv in Hinit as (c & w1 & Hc & Hg & _).
    rewrite Pandas_get_code_run in Hg. injection Hg as Hg _.
    by exists c, (_fn_name obj).
Qed.

(** C8: a single string is normalised to the one-element sequence holding it,
    a sequence is kept as it is, and the normalised sequence is the
    instructions of the Task Descriptor, which is the one request a
    construction sends (none when no client can be had). *)
Theorem instructions_normalized :
  (forall s, normalize (InstrStr s) = [s]) /\
  (forall l, normalize (InstrList l) = l) /\
  (forall i inp ai (client : option Client) (w : world value),
      instructions (Genie_descriptor i inp ai) = normalize i /\
      sent (Genie i inp ai client w).2 =
      sent w ++ match client_or_new client with
                | inr _ => [GenericRequest (Genie_descriptor i inp ai)]
                | inl _ => []
                end)
  /\
  (forall i cols inp ai (client : option Client) (w : world value),
      p_instructions (Pandas_descriptor i cols inp ai) = normalize i /\
      sent (PandasGenie i cols inp ai client w).2 =
      sent w ++ match client_or_new client with
                | inr _ => [PandasRequest (Pandas_descriptor i cols inp ai)]
                | inl _ => []
                end).
Proof.
  repeat split.
  - apply Genie_sent.
  - apply Pandas_sent.
Qed.

(** C9, as amended: every activation runs the code with, for globals, a
    dictionary that is new (stored where none was) and empty when the run
    starts, and looks the function up in that dictionary alone.  The wrapper
    itself changes no other dictionary and no request: after an activation,
    and after a construction, a dictionary that existed before is as the run
    of the returned code left it, hence unchanged whenever the code leaves it
    alone, and unchanged when no code was run. *)
Theorem activation_namespace_is_fresh (cd fn : string) (w : world value) :
  heap w !! length (heap w) = None /\
  heap (_extract_executable cd fn w).2
  = (py_exec cd (length (heap w)) (heap w ++ [∅])).1 /\
  (_extract_executable cd fn w).1
  = match (py_exec cd (length (heap w)) (heap w ++ [∅])).2 with
    | Some e => inl e
    | None =>
        match ((py_exec cd (length (heap w)) (heap w ++ [∅])).1
               !!! length (heap w)) !! fn with
        | Some v => inr v
        | None => inl (KeyError fn)
        end
    end /\
  sent (_extract_executable cd fn w).2 = sent w /\
  (forall i inp ai client l m,
      heap w !! l = Some m ->
      (forall c cd' fn',
          client_or_new client = inr c ->
          get_generic c (Genie_descriptor i inp ai) = inr (cd', fn') ->
          (activation_run cd' w).1 !! l = Some m) ->
      heap (Genie i inp ai client w).2 !! l = Some m) /\
  (forall i cols inp ai client l m,
      heap w !! l = Some m ->
      (forall c cd' fn',
          client_or_new client = inr c ->
          get_pandas c (Pandas_descriptor i cols inp ai) = inr (cd', fn') ->
          (activation_run cd' w).1 !! l = Some m) ->
      heap (PandasGenie i cols inp ai client w).2 !! l = Some m).
Proof.
  rewrite extract_run. simpl. split; [by apply lookup_ge_None|].
  split; [done|]. split; [done|]. split; [done|]. split.
  - intros i inp ai client l m Hl Hkept. unfold Genie.
    destruct (client_or_new client) as [e|c] eqn:Hc.
    { by rewrite (init_no_client _ _ _ _ _ e). }
    destruct (get_generic c (Genie_descriptor i inp ai)) as [e|[cd' fn']] eqn:Hg.
    + erewrite init_get_code_fails; [|done|]; last first.
      { rewrite Genie_get_code_run. unfold Genie_descriptor in Hg. by rewrite Hg. }
      done.
    + fold (Genie i inp ai client w).
      rewrite (Genie_run _ _ _ _ c cd' fn') by done. simpl.
      rewrite extract_run. simpl. by apply (Hkept c cd' fn').
  - intros i cols inp ai client l m Hl Hkept. unfold PandasGenie.
    destruct (client_or_new client) as [e|c] eqn:Hc.
    { by rewrite (init_no_client _ _ _ _ _ e). }
    destruct (get_pandas c (Pandas_descriptor i cols inp ai)) as [e|[cd' fn']] eqn:Hg.
    + erewrite init_get_code_fails; [|done|]; last first.
      { rewrite Pandas_get_code_run. unfold Pandas_descriptor in Hg.
        by rewrite Hg. }
      done.
    + fold (PandasGenie i cols inp ai client w).
      rewrite (Pandas_run _ _ _ _ _ c cd' fn') by done. simpl.
      rewrite extract_run. simpl. by apply (Hkept c cd' fn').
Qed.

(** C10: when the code binds the returned name to an object that cannot be
    called, activation succeeds and returns that object, construction
    succeeds, and the fault is the [TypeError] of the call when the wrapper is
    invoked. *)
Theorem non_callable_binding_accepted (cd fn : string) (v : value)
    (w : world value) :
  (activation_run cd w).2 = None ->
  activation_dict cd w !! fn = Some v ->
  as_callable v = None ->
  (_extract_executable cd fn w).1 = inr v
  /\
  (forall {S} {I : GenieImpl S} (self : S) i inp ai client c w0,
      client_or_new client = inr c ->
      _get_code self (init_attrs i inp ai) c w0 = (inr (cd, fn), w) ->
      exists obj,
        (GenieBase_init self i inp ai client w0).1 = inr obj /\
        _executor obj = v /\
        forall args kwargs (w2 : world value),
          __call__ obj args kwargs w2 =
          (inl (TypeError
                  (if bool_decide ("self" ∈ kwargs.*1)
                   then "GenieBase.__call__() got multiple values for argument 'self'"
                   else "'" +:+ type_name v +:+ "' object is not callable")),
           w2)).
Proof.
  intros Hrun Hmem Hcall.
  assert (Hx : (_extract_executable cd fn w).1 = inr v).
  { rewrite extract_run. simpl. by rewrite Hrun, Hmem. }
  split; [done|].
  intros S I self i inp ai client c w0 Hc Hg.
  rewrite (init_run self i inp ai client c cd fn w0 w) by done.
  simpl. rewrite Hx. eexists. split; [done|]. split; [done|].
  intros args kwargs w2. unfold __call__, py_call. simpl.
  case_bool_decide; [done|]. by rewrite Hcall.
Qed.

End Claims.

(** * Further properties of construction *)

Section Construction.
Context {R : Runtime}.

(** The run an activation starts is the same before and after a request has
    left. *)
Lemma activation_after_send (cd : string) (w : world value) (r : request) :
  activation_run cd (after_send w r) = activation_run cd w /\
  activation_dict cd (after_send w r) = activation_dict cd w.
Proof. done. Qed.

(** X1: when the code returned by the service raises while [exec] runs it,
    construction fails with that exception, whatever the code had bound
    before; the request has left and the store is as the run left it. *)
Theorem exec_error_propagates (client : option Client) (c : Client)
    (cd fn : string) (e : PyExn) :
  client_or_new client = inr c ->
  (forall i inp ai (w : world value) h',
      get_generic c (Genie_descriptor i inp ai) = inr (cd, fn) ->
      activation_run cd w = (h', Some e) ->
      Genie i inp ai client w =
      (inl e, World (sent w ++ [GenericRequest (Genie_descriptor i inp ai)]) h'))
  /\
  (forall i cols inp ai (w : world value) h',
      get_pandas c (Pandas_descriptor i cols inp ai) = inr (cd, fn) ->
      activation_run cd w = (h', Some e) ->
      PandasGenie i cols inp ai client w =
      (inl e,
       World (sent w ++ [PandasRequest (Pandas_descriptor i cols inp ai)]) h')).
Proof.
  intros Hc. split.
  - intros i inp ai w h' Hg Hrun. rewrite (Genie_run _ _ _ _ c cd fn) by done.
    simpl. rewrite extract_run. simpl.
    rewrite (proj1 (activation_after_send _ _ _)). by rewrite Hrun.
  - intros i cols inp ai w h' Hg Hrun.
    rewrite (Pandas_run _ _ _ _ _ c cd fn) by done.
    simpl. rewrite extract_run. simpl.
    rewrite (proj1 (activation_after_send _ _ _)). by rewrite Hrun.
Qed.

(** X2: a [Genie] construction returns the wrapper [obj] exactly when a
    client is there, the service answers this construction's descriptor with
    the code and the name [obj] holds, the code runs to its end on a new
    dictionary, the name is then bound there to the executor of [obj], and
    [obj] keeps the arguments of the construction. *)
Theorem Genie_succeeds_iff i inp ai (client : option Client) (w : world value)
    (obj : GenieObj unit) :
  (Genie i inp ai client w).1 = inr obj
  <->
  exists c,
    client_or_new client = inr c /\
    get_generic c (Genie_descriptor i inp ai) = inr (_code obj, _fn_name obj) /\
    (activation_run (_code obj) w).2 = None /\
    activation_dict (_code obj) w !! _fn_name obj = Some (_executor obj) /\
    _base obj = init_attrs i (Some inp) ai.
Proof.
  split.
  - intros Hinit.
    destruct (Genie i inp ai client w) as [r w'] eqn:Hrun. simpl in Hinit. subst r.
    apply init_inv in Hrun as (c & w1 & Hc & Hg & Hx & _ & Hbase).
    rewrite Genie_get_code_run in Hg. injection Hg as Hg <-.
    rewrite extract_run in Hx. injection Hx as Hx _.
    rewrite (proj1 (activation_after_send _ _ _)) in Hx.
    rewrite (proj2 (activation_after_send _ _ _)) in Hx.
    exists c. repeat split; try done.
    + by destruct (activation_run _ _).2.
    + destruct (activation_run _ _).2; [discriminate|].
      destruct (_ !! _fn_name obj); [by injection Hx as -> | discriminate].
  - intros (c & Hc & Hg & Hrun & Hv & Hbase).
    rewrite (Genie_run _ _ _ _ c (_code obj) (_fn_name obj)) by done.
    simpl. rewrite extract_run. simpl.
    rewrite (proj1 (activation_after_send _ _ _)).
    rewrite (proj2 (activation_after_send _ _ _)). rewrite Hrun, Hv.
    destruct obj as [[] b cd fn v]. simpl in *. by subst b.
Qed.

(** X3: the same for [PandasGenie], whose wrapper also keeps the columns. *)
Theorem Pandas_succeeds_iff i cols inp ai (client : option Client)
    (w : world value) (obj : GenieObj pandas_attrs) :
  (PandasGenie i cols inp ai client w).1 = inr obj
  <->
  exists c,
    client_or_new client = inr c /\
    get_pandas c (Pandas_descriptor i cols inp ai) = inr (_code obj, _fn_name obj) /\
    (activation_run (_code obj) w).2 = None /\
    activation_dict (_code obj) w !! _fn_name obj = Some (_executor obj) /\
    _base obj = init_attrs i inp ai /\
    _columns (_own obj) = cols.
Proof.
  split.
  - intros Hinit.
    destruct (PandasGenie i cols inp ai client w) as [r w'] eqn:Hrun.
    simpl in Hinit. subst r.
    apply init_inv in Hrun as (c & w1 & Hc & Hg & Hx & Hown & Hbase).
    rewrite Pandas_get_code_run in Hg. injection Hg as Hg <-.
    rewrite extract_run in Hx. injection Hx as Hx _.
    rewrite (proj1 (activation_after_send _ _ _)) in Hx.
    rewrite (proj2 (activation_after_send _ _ _)) in Hx.
    exists c. repeat split; try done.
    + by destruct (activation_run _ _).2.
    + destruct (activation_run _ _).2; [discriminate|].
      destruct (_ !! _fn_name obj); [by injection Hx as -> | discriminate].
    + by rewrite Hown.
  - intros (c & Hc & Hg & Hrun & Hv & Hbase & Hcols).
    rewrite (Pandas_run _ _ _ _ _ c (_code obj) (_fn_name obj)) by done.
    simpl. rewrite extract_run. simpl.
    rewrite (proj1 (activation_after_send _ _ _)).
    rewrite (proj2 (activation_after_send _ _ _)). rewrite Hrun, Hv.
    destruct obj as [[cols'] b cd fn v]. simpl in *. by subst b cols'.
Qed.

(** X4: without a client argument, when [Client()] raises, construction fails
    with that exception and nothing has happened: no request was sent and no
    dictionary was created. *)
Theorem no_client_no_effect (e : PyExn) :
  Client_new = inl e ->
  (forall i inp ai (w : world value), Genie i inp ai None w = (inl e, w))
  /\
  (forall i cols inp ai (w : world value),
      PandasGenie i cols inp ai None w = (inl e, w)).
Proof.
  intros Hnew. split; intros; apply init_no_client; exact Hnew.
Qed.

(** X5: the one request a construction sends carries the arguments as they
    were supplied: the inputs and the allow-list for [Genie], the columns, the
    inputs and the allow-list for [PandasGenie]; only the instructions are
    normalised. *)
Theorem request_carries_arguments (client : option Client) (c : Client) :
  client_or_new client = inr c ->
  (forall i inp ai (w : world value),
      exists r,
        sent (Genie i inp ai client w).2 = sent w ++ [GenericRequest r] /\
        instructions r = normalize i /\ inputs r = Some inp /\
        allowed_imports r = ai)
  /\
  (forall i cols inp ai (w : world value),
      exists r,
        sent (PandasGenie i cols inp ai client w).2 = sent w ++ [PandasRequest r] /\
        p_instructions r = normalize i /\ p_columns r = cols /\
        p_inputs r = inp /\ p_allowed_imports r = ai).
Proof.
  intros Hc. split.
  - intros i inp ai w. exists (Genie_descriptor i inp ai).
    rewrite Genie_sent, Hc. by repeat split.
  - intros i cols inp ai w. exists (Pandas_descriptor i cols inp ai).
    rewrite Pandas_sent, Hc. by repeat split.
Qed.

(** X7: a [Genie] construction uses the generic operation of its client, on
    its own descriptor, and nothing else of the client; a [PandasGenie]
    construction uses the tabular operation only. *)
Theorem construction_uses_one_operation (c1 c2 : Client) :
  (forall i inp ai (w : world value),
      get_generic c1 (Genie_descriptor i inp ai)
      = get_generic c2 (Genie_descriptor i inp ai) ->
      Genie i inp ai (Some c1) w = Genie i inp ai (Some c2) w)
  /\
  (forall i cols inp ai (w : world value),
      get_pandas c1 (Pandas_descriptor i cols inp ai)
      = get_pandas c2 (Pandas_descriptor i cols inp ai) ->
      PandasGenie i cols inp ai (Some c1) w = PandasGenie i cols inp ai (Some c2) w).
Proof.
  split.
  - intros i inp ai w Heq.
    destruct (get_generic c2 (Genie_descriptor i inp ai)) as [e|[cd fn]] eqn:Hg.
    + unfold Genie, Genie_descriptor in *.
      rewrite (init_get_code_fails _ _ _ _ (Some c1) c1 e w
                 (after_send w (GenericRequest (Genie_request
                                                  (init_attrs i (Some inp) ai)))));
        [|done|by rewrite Genie_get_code_run, Heq].
      rewrite (init_get_code_fails _ _ _ _ (Some c2) c2 e w
                 (after_send w (GenericRequest (Genie_request
                                                  (init_attrs i (Some inp) ai)))));
        [done|done|by rewrite Genie_get_code_run, Hg].
    + by rewrite (Genie_run _ _ _ (Some c1) c1 cd fn),
                 (Genie_run _ _ _ (Some c2) c2 cd fn).
  - intros i cols inp ai w Heq.
    destruct (get_pandas c2 (Pandas_descriptor i cols inp ai)) as [e|[cd fn]] eqn:Hg.
    + unfold PandasGenie, Pandas_descriptor in *.
      rewrite (init_get_code_fails _ _ _ _ (Some c1) c1 e w
                 (after_send w (PandasRequest (Pandas_request {| _columns := cols |}
                                                 (init_attrs i inp ai)))));
        [|done|by rewrite Pandas_get_code_run, Heq].
      rewrite (init_get_code_fails _ _ _ _ (Some c2) c2 e w
                 (after_send w (PandasRequest (Pandas_request {| _columns := cols |}
                                                 (init_attrs i inp ai)))));
        [done|done|by rewrite Pandas_get_code_run, Hg].
    + by rewrite (Pandas_run _ _ _ _ (Some c1) c1 cd fn),
                 (Pandas_run _ _ _ _ (Some c2) c2 cd fn).
Qed.

(** X10: every failure of a construction has one of four origins: [Client()]
    raised it, the service operation raised it, the run of the returned code
    raised it, or the code ran to its end without binding the returned name
    and it is the [KeyError] for that name.  The wrapper raises nothing
    else. *)
Theorem failure_origins (client : option Client) (e : PyExn) :
  (forall i inp ai (w : world value),
      (Genie i inp ai client w).1 = inl e ->
      client_or_new client = inl e \/
      exists c,
        client_or_new client = inr c /\
        (get_generic c (Genie_descriptor i inp ai) = inl e \/
         exists cd fn,
           get_generic c (Genie_descriptor i inp ai) = inr (cd, fn) /\
           ((activation_run cd w).2 = Some e \/
            (activation_run cd w).2 = None /\
            activation_dict cd w !! fn = None /\
            e = KeyError fn)))
  /\
  (forall i cols inp ai (w : world value),
      (PandasGenie i cols inp ai client w).1 = inl e ->
      client_or_new client = inl e \/
      exists c,
        client_or_new client = inr c /\
        (get_pandas c (Pandas_descriptor i cols inp ai) = inl e \/
         exists cd fn,
           get_pandas c (Pandas_descriptor i cols inp ai) = inr (cd, fn) /\
           ((activation_run cd w).2 = Some e \/
            (activation_run cd w).2 = None /\
            activation_dict cd w !! fn = None /\
            e = KeyError fn))).
Proof.
  split.
  - intros i inp ai w Hfail. destruct (client_or_new client) as [e0|c] eqn:Hc.
    + left. unfold Genie in Hfail.
      rewrite (init_no_client _ _ _ _ _ e0) in Hfail by done. by injection Hfail as ->.
    + right. exists c. split; [done|].
      destruct (get_generic c (Genie_descriptor i inp ai)) as [e0|[cd fn]] eqn:Hg.
      * left. unfold Genie in Hfail. erewrite init_get_code_fails in Hfail;
          [|done|rewrite Genie_get_code_run; unfold Genie_descriptor in Hg;
                 by rewrite Hg].
        by injection Hfail as ->.
      * right. exists cd, fn. split; [done|].
        rewrite (Genie_run _ _ _ _ c cd fn) in Hfail by done.
        simpl in Hfail. rewrite extract_run in Hfail. simpl in Hfail.
        rewrite (proj1 (activation_after_send _ _ _)) in Hfail.
        rewrite (proj2 (activation_after_send _ _ _)) in Hfail.
        destruct (activation_run cd w).2 as [e1|].
        { left. by injection Hfail as ->. }
        right. destruct (_ !! fn); [discriminate|]. by injection Hfail as <-.
  - intros i cols inp ai w Hfail. destruct (client_or_new client) as [e0|c] eqn:Hc.
    + left. unfold PandasGenie in Hfail.
      rewrite (init_no_client _ _ _ _ _ e0) in Hfail by done. by injection Hfail as ->.
    + right. exists c. split; [done|].
      destruct (get_pandas c (Pandas_descriptor i cols inp ai)) as [e0|[cd fn]] eqn:Hg.
      * left. unfold PandasGenie in Hfail. erewrite init_get_code_fails in Hfail;
          [|done|rewrite Pandas_get_code_run; unfold Pandas_descriptor in Hg;
                 by rewrite Hg].
        by injection Hfail as ->.
      * right. exists cd, fn. split; [done|].
        rewrite (Pandas_run _ _ _ _ _ c cd fn) in Hfail by done.
        simpl in Hfail. rewrite extract_run in Hfail. simpl in Hfail.
        rewrite (proj1 (activation_after_send _ _ _)) in Hfail.
        rewrite (proj2 (activation_after_send _ _ _)) in Hfail.
        destruct (activation_run cd w).2 as [e1|].
        { left. by injection Hfail as ->. }
        right. destruct (_ !! fn); [discriminate|]. by injection Hfail as <-.
Qed.

(** X11: nothing is cached between constructions: a second construction with
    the same arguments and the same client sends the same request once
    more. *)
Theorem no_caching (client : option Client) (c : Client) :
  client_or_new client = inr c ->
  (forall i inp ai (w : world value),
      sent (Genie i inp ai client (Genie i inp ai client w).2).2
      = sent w ++ [GenericRequest (Genie_descriptor i inp ai);
                   GenericRequest (Genie_descriptor i inp ai)])
  /\
  (forall i cols inp ai (w : world value),
      sent (PandasGenie i cols inp ai client
              (PandasGenie i cols inp ai client w).2).2
      = sent w ++ [PandasRequest (Pandas_descriptor i cols inp ai);
                   PandasRequest (Pandas_descriptor i cols inp ai)]).
Proof.
  intros Hc. split.
  - intros i inp ai w. rewrite !Genie_sent, Hc. by rewrite <- app_assoc.
  - intros i cols inp ai w. rewrite !Pandas_sent, Hc. by rewrite <- app_assoc.
Qed.

End Construction.

(** * The claims on the small runtime *)

Import Mini.

(** The outcome is not an exception of the class: its class, or its absence,
    is computed. *)
Ltac refute_class :=
  let H := fresh "H" in
  intros H; apply fails_with_class in H; vm_compute in H; discriminate H.

(** C1 as stated fails: the service raises [ConnectionError], and that, not
    [GenerationFailed], is what construction fails with. *)
Lemma generation_failed_counterexample :
  get_generic unreachable (Genie_descriptor (InstrStr "double x") x_inputs None)
  = inl (Raise "ConnectionError" "service unreachable") /\
  (Genie (InstrStr "double x") x_inputs None (Some unreachable) w0).1
  = inl (Raise "ConnectionError" "service unreachable") /\
  ~ fails_with "GenerationFailed"
      (Genie (InstrStr "double x") x_inputs None (Some unreachable) w0).
Proof. split; [reflexivity|]. split; [reflexivity|]. refute_class. Qed.

Lemma service_error_propagates_witness :
  client_or_new (Some unreachable) = inr unreachable /\
  Genie (InstrStr "double x") x_inputs None (Some unreachable) w0 =
  (inl (Raise "ConnectionError" "service unreachable"),
   after_send w0 (GenericRequest (Genie_descriptor (InstrStr "double x") x_inputs None)))
  /\
  PandasGenie (InstrList ["mean of a"]) None None None (Some unreachable) w0 =
  (inl (Raise "ConnectionError" "service unreachable"),
   after_send w0
     (PandasRequest (Pandas_descriptor (InstrList ["mean of a"]) None None None))).
Proof.
  split; [reflexivity|]. split.
  - apply (proj1 (service_error_propagates (Some unreachable) unreachable
                    (Raise "ConnectionError" "service unreachable") eq_refl)).
    reflexivity.
  - apply (proj2 (service_error_propagates (Some unreachable) unreachable
                    (Raise "ConnectionError" "service unreachable") eq_refl)).
    reflexivity.
Defined.

(** C2 as stated fails: no inputs are supplied, and the one request that is
    sent has no inputs mapping at all, so none with exactly one entry. *)
Lemma pandas_default_inputs_counterexample :
  exists r,
    sent (PandasGenie (InstrStr "mean of a") None None None (Some gives_function) w0).2
    = [PandasRequest r] /\
    p_inputs r = None /\
    ~ (exists m : gmap string string, p_inputs r = Some m /\ size m = 1).
Proof.
  eexists. split; [reflexivity|]. split; [reflexivity|].
  intros [m [Hm _]]. discriminate Hm.
Qed.

Lemma pandas_inputs_sent_as_supplied_witness :
  client_or_new (Some gives_function) = inr gives_function /\
  exists r,
    sent (PandasGenie (InstrStr "mean of a") None None None (Some gives_function) w0).2
    = sent w0 ++ [PandasRequest r] /\
    p_inputs r = None.
Proof.
  split; [reflexivity|].
  apply (pandas_inputs_sent_as_supplied (InstrStr "mean of a") None None
           (Some gives_function) gives_function w0 eq_refl).
Defined.

(** C3 as stated fails: the code binds [x] and not the announced [f]; the
    failure is the [KeyError] of the lookup, not [ActivationError]. *)
Lemma activation_error_counterexample :
  activation_dict "x = 3" w0 !! "f" = None /\
  (Genie (InstrStr "double x") x_inputs None (Some gives_other_name) w0).1
  = inl (KeyError "f") /\
  ~ fails_with "ActivationError"
      (Genie (InstrStr "double x") x_inputs None (Some gives_other_name) w0).
Proof.
  split; [by vm_compute|]. split; [reflexivity|]. refute_class.
Qed.

Lemma missing_function_is_KeyError_witness :
  client_or_new (Some gives_other_name) = inr gives_other_name /\
  (activation_run "x = 3" w0).2 = None /\
  activation_dict "x = 3" w0 !! "f" = None /\
  (Genie (InstrStr "double x") x_inputs None (Some gives_other_name) w0).1
  = inl (KeyError "f") /\
  (PandasGenie (InstrStr "mean of a") None None None (Some gives_other_name) w0).1
  = inl (KeyError "f").
Proof.
  split; [reflexivity|]. split; [reflexivity|]. split; [by vm_compute|].
  destruct (missing_function_is_KeyError (R := runtime) (Some gives_other_name)
              gives_other_name "x = 3" "f" eq_refl) as [HG HP].
  split; [apply HG | apply HP]; first [reflexivity | by vm_compute].
Defined.

(** C4 as stated fails: with the empty string, and with the empty sequence,
    for instructions, construction succeeds. *)
Lemma invalid_argument_counterexample :
  empty_instructions (InstrStr "") /\
  empty_instructions (InstrList []) /\
  ~ fails_with "InvalidArgument"
      (Genie (InstrStr "") x_inputs None (Some gives_function) w0) /\
  ~ fails_with "InvalidArgument"
      (PandasGenie (InstrList []) None None None (Some gives_function) w0) /\
  (exists obj,
      (Genie (InstrStr "") x_inputs None (Some gives_function) w0).1 = inr obj) /\
  (exists obj,
      (PandasGenie (InstrList []) None None None (Some gives_function) w0).1
      = inr obj).
Proof.
  split; [by left|]. split; [by right|].
  split; [refute_class|]. split; [refute_class|].
  split; eexists; reflexivity.
Qed.

Lemma empty_instructions_accepted_witness :
  empty_instructions (InstrStr "") /\
  client_or_new (Some gives_function) = inr gives_function /\
  exists obj,
    (Genie (InstrStr "") x_inputs None (Some gives_function) w0).1 = inr obj /\
    _executor obj = PBuiltinFn "abs" /\
    _instructions (_base obj) = [""] /\
    sent (Genie (InstrStr "") x_inputs None (Some gives_function) w0).2
    = [GenericRequest (Genie_descriptor (InstrStr "") x_inputs None)].
Proof.
  split; [by left|]. split; [reflexivity|].
  apply (proj1 (proj2 (empty_instructions_accepted (R := runtime) (InstrStr "")
                         (Some gives_function) gives_function "f = abs" "f"
                         (PBuiltinFn "abs") (or_introl eq_refl) eq_refl)));
    reflexivity.
Defined.

(** C5 as stated fails: no allow-list is supplied, and the one request that is
    sent has none either, not the modules the docstring lists. *)
Lemma pandas_default_imports_counterexample :
  exists r,
    sent (PandasGenie (InstrStr "mean of a") None None None (Some gives_function) w0).2
    = [PandasRequest r] /\
    p_allowed_imports r = None /\
    ~ (exists l, p_allowed_imports r = Some l /\ l ≡ₚ documented_default_imports).
Proof.
  eexists. split; [reflexivity|]. split; [reflexivity|].
  intros [l [Hl _]]. discriminate Hl.
Qed.

Lemma pandas_imports_sent_as_supplied_witness :
  client_or_new (Some gives_function) = inr gives_function /\
  exists r,
    sent (PandasGenie (InstrStr "mean of a") (Some ["a"; "b"]) None None
            (Some gives_function) w0).2
    = sent w0 ++ [PandasRequest r] /\
    p_allowed_imports r = None.
Proof.
  split; [reflexivity|].
  apply (pandas_imports_sent_as_supplied (InstrStr "mean of a") (Some ["a"; "b"])
           None (Some gives_function) gives_function w0 eq_refl).
Defined.

(** Constructing a wrapper on the small runtime, and calling it. *)
Example abs_wrapper_constructed :
  Genie (InstrStr "absolute value of x") x_inputs None (Some gives_function) w0
  = (inr abs_wrapper, abs_world).
Proof. reflexivity. Qed.

Example abs_wrapper_called :
  __call__ abs_wrapper [PInt (-5)] [] abs_world = (inr (PInt 5), abs_world).
Proof. reflexivity. Qed.

(** C6 as stated fails: the function of this wrapper takes any keyword and
    returns 5, also for the keyword [self]; the wrapper invoked with that
    keyword raises [TypeError]. *)
Lemma keyword_self_counterexample :
  (Genie (InstrStr "five") x_inputs None (Some gives_constant) w0).1
  = inr constant_wrapper /\
  (exists g,
      as_callable (_executor constant_wrapper) = Some g /\
      g [] [("self", PInt 1)] w0 = (inr (PInt 5), w0)) /\
  __call__ constant_wrapper [] [("self", PInt 1)] w0
  = (inl (TypeError "GenieBase.__call__() got multiple values for argument 'self'"),
     w0) /\
  __call__ constant_wrapper [] [("self", PInt 1)] w0
  <> py_call (_executor constant_wrapper) [] [("self", PInt 1)] w0.
Proof.
  split; [reflexivity|]. split; [by eexists|]. split; [reflexivity|].
  discriminate.
Qed.

Lemma call_is_pass_through_witness :
  Genie (InstrStr "absolute value of x") x_inputs None (Some gives_function) w0
  = (inr abs_wrapper, abs_world) /\
  exists w1 f,
    (activation_run (code abs_wrapper) w1).2 = None /\
    activation_dict (code abs_wrapper) w1 !! _fn_name abs_wrapper = Some f /\
    heap abs_world = (activation_run (code abs_wrapper) w1).1 /\
    (forall args kwargs (w2 : world value),
        "self" ∉ kwargs.*1 ->
        __call__ abs_wrapper args kwargs w2 =
        match as_callable f with
        | Some g => g args kwargs w2
        | None =>
            (inl (TypeError ("'" +:+ type_name f +:+ "' object is not callable")),
             w2)
        end) /\
    (forall args kwargs (w2 : world value),
        "self" ∈ kwargs.*1 ->
        __call__ abs_wrapper args kwargs w2 =
        (inl (TypeError
                "GenieBase.__call__() got multiple values for argument 'self'"),
         w2)).
Proof.
  split; [reflexivity|].
  apply (call_is_pass_through (R := runtime) tt (InstrStr "absolute value of x")
           (Some x_inputs) None (Some gives_function) w0 abs_world abs_wrapper).
  reflexivity.
Defined.

Lemma code_is_service_text_witness :
  Genie (InstrStr "absolute value of x") x_inputs None (Some gives_function) w0
  = (inr abs_wrapper, abs_world) /\
  exists c fn,
    client_or_new (Some gives_function) = inr c /\
    get_generic c (Genie_descriptor (InstrStr "absolute value of x") x_inputs None)
    = inr (code abs_wrapper, fn).
Proof.
  split; [reflexivity|].
  apply (proj1 (code_is_service_text (R := runtime))
           (InstrStr "absolute value of x") x_inputs None (Some gives_function)
           w0 abs_world abs_wrapper).
  reflexivity.
Defined.

Lemma non_callable_binding_accepted_witness :
  (activation_run "f = 3" w0).2 = None /\
  activation_dict "f = 3" w0 !! "f" = Some (PInt 3) /\
  as_callable (PInt 3) = None /\
  (_extract_executable "f = 3" "f"
     (after_send w0 (GenericRequest (Genie_descriptor (InstrStr "three")
                                       x_inputs None)))).1
  = inr (PInt 3) /\
  exists obj,
    (Genie (InstrStr "three") x_inputs None (Some gives_number) w0).1 = inr obj /\
    _executor obj = PInt 3 /\
    forall args kwargs (w2 : world value),
      __call__ obj args kwargs w2
      = (inl (TypeError
                (if bool_decide ("self" ∈ kwargs.*1)
                 then "GenieBase.__call__() got multiple values for argument 'self'"
                 else "'int' object is not callable")),
         w2).
Proof.
  split; [reflexivity|]. split; [by vm_compute|]. split; [reflexivity|].
  destruct (non_callable_binding_accepted (R := runtime) "f = 3" "f" (PInt 3)
              (after_send w0 (GenericRequest (Genie_descriptor (InstrStr "three")
                                                x_inputs None))))
    as [Hx Hinit]; [reflexivity | by vm_compute | reflexivity |].
  split; [exact Hx|].
  apply (Hinit unit Genie_impl tt (InstrStr "three") (Some x_inputs) None
           (Some gives_number) gives_number w0 eq_refl).
  reflexivity.
Defined.

(** C9 as stated fails: the caller binds [f] to 7; the returned text rebinds
    it through [__main__] while it binds [g] in its own dictionary.  The
    activation succeeds, and the caller's [f] is 3. *)
Lemma isolation_counterexample :
  heap w0 !! 0 = Some {[ "f" := PInt 7 ]} /\
  (_extract_executable rebinding_text "g" w0).1 = inr (PBuiltinFn "abs") /\
  heap (_extract_executable rebinding_text "g" w0).2 !! 0
  = Some {[ "f" := PInt 3 ]} /\
  ~ (forall l m,
        heap w0 !! l = Some m ->
        heap (_extract_executable rebinding_text "g" w0).2 !! l = Some m).
Proof.
  split; [reflexivity|]. split; [reflexivity|]. split; [reflexivity|].
  intros Hkept. specialize (Hkept 0 _ eq_refl).
  apply (f_equal (fun o : option (gmap string pyval) =>
                    match o with Some m => m !! "f" | None => None end))
    in Hkept.
  vm_compute in Hkept. discriminate Hkept.
Qed.

(** The caller binds [f] to 7; a wrapper whose code binds [f] to [abs] in its
    own dictionary is constructed; the caller's dictionary still binds [f] to
    7. *)
Lemma activation_namespace_is_fresh_witness :
  heap w0 !! 0 = Some {[ "f" := PInt 7 ]} /\
  (activation_run "f = abs" w0).1 !! 0 = Some {[ "f" := PInt 7 ]} /\
  heap (Genie (InstrStr "absolute value of x") x_inputs None
          (Some gives_function) w0).2 !! 0
  = Some {[ "f" := PInt 7 ]} /\
  heap (_extract_executable "f = abs" "f" w0).2
  = (py_exec "f = abs" 1 (heap w0 ++ [∅])).1.
Proof.
  split; [reflexivity|]. split; [reflexivity|]. split.
  - apply (proj1 (proj2 (proj2 (proj2 (proj2
             (activation_namespace_is_fresh (R := runtime) "f = abs" "f" w0)))))).
    + reflexivity.
    + intros c cd' fn' [= <-] [= <- <-]. reflexivity.
  - apply (proj1 (proj2 (activation_namespace_is_fresh (R := runtime)
                           "f = abs" "f" w0))).
Defined.

(** * Further properties on the small runtime *)

(** The code binds [f] and then fails on the unbound [h]: construction fails
    with the [NameError], although [f] is bound in the dictionary left. *)
Lemma exec_error_propagates_witness :
  client_or_new (Some gives_failing_code) = inr gives_failing_code /\
  activation_run "f = 3
g = h" w0
  = ([ {[ "f" := PInt 7 ]}; <["f" := PInt 3]> {[ "__builtins__" := PBuiltins ]} ],
     Some (NameError "h")) /\
  Genie (InstrStr "three") x_inputs None (Some gives_failing_code) w0 =
  (inl (NameError "h"),
   World (sent w0 ++ [GenericRequest (Genie_descriptor (InstrStr "three")
                                         x_inputs None)])
         [ {[ "f" := PInt 7 ]};
           <["f" := PInt 3]> {[ "__builtins__" := PBuiltins ]} ]).
Proof.
  split; [reflexivity|]. split; [reflexivity|].
  apply (proj1 (exec_error_propagates (R := runtime) (Some gives_failing_code)
                  gives_failing_code "f = 3
g = h" "f" (NameError "h") eq_refl)); reflexivity.
Defined.

Lemma no_client_no_effect_witness :
  Client_new = inl (Raise "ValueError" "no token") /\
  Genie (InstrStr "double x") x_inputs None None w0
  = (inl (Raise "ValueError" "no token"), w0) /\
  PandasGenie (InstrStr "mean of a") None None None None w0
  = (inl (Raise "ValueError" "no token"), w0).
Proof.
  split; [reflexivity|].
  destruct (no_client_no_effect (R := runtime) (Raise "ValueError" "no token")
              eq_refl) as [HG HP].
  split; [apply HG | apply HP].
Defined.

Lemma request_carries_arguments_witness :
  client_or_new (Some gives_function) = inr gives_function /\
  exists r,
    sent (PandasGenie (InstrStr "mean of a") (Some ["a"; "b"]) (Some x_inputs)
            (Some ["math"]) (Some gives_function) w0).2
    = sent w0 ++ [PandasRequest r] /\
    p_instructions r = ["mean of a"] /\ p_columns r = Some ["a"; "b"] /\
    p_inputs r = Some x_inputs /\ p_allowed_imports r = Some ["math"].
Proof.
  split; [reflexivity|].
  apply (proj2 (request_carries_arguments (R := runtime) (Some gives_function)
                  gives_function eq_refl)).
Defined.

Lemma construction_uses_one_operation_witness :
  get_generic gives_function
    (Genie_descriptor (InstrStr "absolute value of x") x_inputs None)
  = get_generic generic_only
      (Genie_descriptor (InstrStr "absolute value of x") x_inputs None) /\
  get_pandas gives_function (Pandas_descriptor (InstrStr "s") None None None)
  <> get_pandas generic_only (Pandas_descriptor (InstrStr "s") None None None) /\
  Genie (InstrStr "absolute value of x") x_inputs None (Some gives_function) w0
  = Genie (InstrStr "absolute value of x") x_inputs None (Some generic_only) w0.
Proof.
  split; [reflexivity|]. split; [discriminate|].
  apply (proj1 (construction_uses_one_operation (R := runtime) gives_function
                  generic_only)).
  reflexivity.
Defined.

Lemma failure_origins_witness :
  (Genie (InstrStr "double x") x_inputs None (Some gives_other_name) w0).1
  = inl (KeyError "f") /\
  (client_or_new (Some gives_other_name) = inl (KeyError "f") \/
   exists c,
     client_or_new (Some gives_other_name) = inr c /\
     (get_generic c (Genie_descriptor (InstrStr "double x") x_inputs None)
      = inl (KeyError "f") \/
      exists cd fn,
        get_generic c (Genie_descriptor (InstrStr "double x") x_inputs None)
        = inr (cd, fn) /\
        ((activation_run cd w0).2 = Some (KeyError "f") \/
         (activation_run cd w0).2 = None /\
         activation_dict cd w0 !! fn = None /\
         KeyError "f" = KeyError fn))).
Proof.
  split; [reflexivity|].
  apply (proj1 (failure_origins (R := runtime) (Some gives_other_name)
                  (KeyError "f"))).
  reflexivity.
Defined.

Lemma no_caching_witness :
  client_or_new (Some gives_function) = inr gives_function /\
  sent (Genie (InstrStr "absolute value of x") x_inputs None (Some gives_function)
          (Genie (InstrStr "absolute value of x") x_inputs None
             (Some gives_function) w0).2).2
  = sent w0 ++ [GenericRequest (Genie_descriptor (InstrStr "absolute value of x")
                                  x_inputs None);
                GenericRequest (Genie_descriptor (InstrStr "absolute value of x")
                                  x_inputs None)].
Proof.
  split; [reflexivity|].
  apply (proj1 (no_caching (R := runtime) (Some gives_function) gives_function
                  eq_refl)).
Defined.
